(** * Botan TLS signature schemes: [src/lib/tls/tls_signature_scheme.cpp]

    A shallow embedding of [Botan::TLS::Signature_Scheme]: the registry of
    offered schemes, the descriptor functions that classify a 16-bit wire
    code, and the two policy predicates [is_compatible_with] and
    [is_suitable_for]. *)

From Stdlib Require Import ZArith List Bool String Ascii Lia.
From Stdlib Require Import DecimalString DecimalPos DecimalZ.
Import ListNotations.

Local Open Scope string_scope.
Local Open Scope Z_scope.

(** ** Machine integers *)

(** [uint16_t]: a [Z] reduced modulo 2^16. *)
Definition uint16_max : Z := 65535.

Definition to_uint16 (z : Z) : Z := z mod 65536.

Definition is_uint16 (z : Z) : Prop := 0 <= z <= uint16_max.

(** ** The C++ [switch] statement

    Every [switch] of the source has pairwise distinct [case] labels, each
    group of labels ends in a [return], and there is a [default] arm.  An
    arm is the list of its labels together with the returned value. *)

Definition has_label (c : Z) (labels : list Z) : bool :=
  existsb (Z.eqb c) labels.

Fixpoint switch {A : Type} (c : Z) (arms : list (list Z * A)) (default : A) : A :=
  match arms with
  | [] => default
  | (labels, body) :: rest =>
      if has_label c labels then body else switch c rest default
  end.

(** All the [case] labels of a switch, in source order. *)
Definition labels_of {A : Type} (arms : list (list Z * A)) : list Z :=
  flat_map fst arms.

(** [covered_by univ ls]: every label of [ls] occurs in [univ]. *)
Definition covered_by (univ ls : list Z) : bool :=
  forallb (fun k => has_label k univ) ls.

(** ** Wire codes *)

Module Code.

(** Modelled from the spec: the enumerators of [Signature_Scheme::Code]
    are declared in [botan/tls_signature_scheme.h], which is not among
    the sources.  Their values are the TLS SignatureScheme registry
    assignments named in the external-interface section of the
    specification ([0x0804], [0x0401], [0x0403] and their families). *)
Definition NONE : Z := 0x0000.

Definition RSA_PKCS1_SHA1 : Z := 0x0201.
Definition RSA_PKCS1_SHA256 : Z := 0x0401.
Definition RSA_PKCS1_SHA384 : Z := 0x0501.
Definition RSA_PKCS1_SHA512 : Z := 0x0601.

Definition ECDSA_SHA1 : Z := 0x0203.
Definition ECDSA_SHA256 : Z := 0x0403.
Definition ECDSA_SHA384 : Z := 0x0503.
Definition ECDSA_SHA512 : Z := 0x0603.

Definition RSA_PSS_SHA256 : Z := 0x0804.
Definition RSA_PSS_SHA384 : Z := 0x0805.
Definition RSA_PSS_SHA512 : Z := 0x0806.

Definition EDDSA_25519 : Z := 0x0807.
Definition EDDSA_448 : Z := 0x0808.

Definition DSA_SHA1 : Z := 0x0202.
Definition DSA_SHA256 : Z := 0x0402.
Definition DSA_SHA384 : Z := 0x0502.
Definition DSA_SHA512 : Z := 0x0602.

(** The code families the claims speak about. *)
Definition rsa_pkcs1_codes : list Z :=
  [RSA_PKCS1_SHA1; RSA_PKCS1_SHA256; RSA_PKCS1_SHA384; RSA_PKCS1_SHA512].

Definition rsa_pss_codes : list Z :=
  [RSA_PSS_SHA256; RSA_PSS_SHA384; RSA_PSS_SHA512].

Definition rsa_codes : list Z := rsa_pkcs1_codes ++ rsa_pss_codes.

Definition ecdsa_codes : list Z :=
  [ECDSA_SHA1; ECDSA_SHA256; ECDSA_SHA384; ECDSA_SHA512].

Definition eddsa_codes : list Z := [EDDSA_25519; EDDSA_448].

Definition dsa_codes : list Z :=
  [DSA_SHA1; DSA_SHA256; DSA_SHA384; DSA_SHA512].

(** The codes whose digest is SHA-1. *)
Definition sha1_codes : list Z := [RSA_PKCS1_SHA1; ECDSA_SHA1; DSA_SHA1].

(** The codes to which [algorithm_identifier] assigns an identifier. *)
Definition identified_codes : list Z :=
  [ECDSA_SHA256; ECDSA_SHA384; ECDSA_SHA512; EDDSA_25519] ++ rsa_codes.

(** The seventeen enumerators that the descriptor switches name
    ([NONE] is an enumerator too, but no switch has a case for it). *)
Definition recognized_codes : list Z :=
  rsa_pkcs1_codes ++ ecdsa_codes ++ rsa_pss_codes ++ eddsa_codes ++ dsa_codes.

End Code.

(** ** External types consumed by the module *)

(** Modelled from the spec: [Protocol_Version] is declared in
    [botan/tls_version.h], which is not among the sources.  The
    specification describes it as a comparable version with major/minor
    ordering and a derived predicate "is pre-TLS-1.3"; a version is not
    pre-TLS-1.3 exactly when it is TLS 1.3 or later. *)
Record Protocol_Version : Type := Build_Protocol_Version {
  major_version : Z;
  minor_version : Z
}.

Definition TLS_V12 : Protocol_Version := Build_Protocol_Version 3 3.
Definition TLS_V13 : Protocol_Version := Build_Protocol_Version 3 4.

Definition version_ltb (a b : Protocol_Version) : bool :=
  (major_version a <? major_version b)
  || ((major_version a =? major_version b)
      && (minor_version a <? minor_version b)).

Definition is_pre_tls_13 (v : Protocol_Version) : bool := version_ltb v TLS_V13.

(** Modelled from the spec: [Private_Key] is declared in [botan/pk_keys.h],
    which is not among the sources.  The module reads two things from a
    key: its algorithm-family name and its length in bits ([size_t]). *)
Record Private_Key : Type := Build_Private_Key {
  algo_name : string;
  key_length : Z
}.

(** Modelled from the spec: [AlgorithmIdentifier] is declared in
    [botan/asn1_obj.h], which is not among the sources.  The specification
    describes it as a pair of an algorithm name and a parameters
    descriptor that is absent, explicitly empty, explicitly null, or a
    DER byte sequence. *)
Inductive Encoded_Parameters : Type :=
| NO_PARAM
| USE_EMPTY_PARAM
| USE_NULL_PARAM
| DER_PARAM (der : list Byte.byte).

Record AlgorithmIdentifier : Type := Build_AlgorithmIdentifier {
  oid_name : string;
  parameters : Encoded_Parameters
}.

(** The default-constructed [AlgorithmIdentifier()]. *)
Definition AlgorithmIdentifier_empty : AlgorithmIdentifier :=
  Build_AlgorithmIdentifier "" NO_PARAM.

(** Modelled from the spec: [Signature_Format] is declared in
    [botan/pk_keys.h]; it has exactly the two values below. *)
Inductive Signature_Format : Type :=
| IEEE_1363
| DER_SEQUENCE.

(** [std::to_string] on an integer: its decimal digits. *)
Definition std_to_string (z : Z) : string :=
  NilZero.string_of_int (Z.to_int z).

(** ** [Signature_Scheme] *)

Record Signature_Scheme : Type := Build_Signature_Scheme {
  m_code : Z
}.

Module Scheme.

Import Code.

(** [Signature_Scheme::Signature_Scheme()] *)
Definition default : Signature_Scheme := Build_Signature_Scheme NONE.

(** [Signature_Scheme::Signature_Scheme(Signature_Scheme::Code)] *)
Definition of_code (wire_code : Z) : Signature_Scheme :=
  Build_Signature_Scheme wire_code.

(** [Signature_Scheme::Signature_Scheme(uint16_t)]: the argument is
    converted to [uint16_t] and then to [Code]. *)
Definition of_uint16 (wire_code : Z) : Signature_Scheme :=
  of_code (to_uint16 wire_code).

(** Modelled from the spec: the accessor [wire_code()] and the equality
    operator are inline members of the class declaration in
    [botan/tls_signature_scheme.h]; identity and equality are defined
    solely by the code value. *)
Definition wire_code (s : Signature_Scheme) : Z := m_code s.

Definition eqb (a b : Signature_Scheme) : bool := m_code a =? m_code b.

(** Modelled from the spec: [value_exists] comes from
    [botan/internal/stl_util.h]; it tells whether a value is a member of
    a sequence, by equality. *)
Definition value_exists (v : list Signature_Scheme) (val : Signature_Scheme) : bool :=
  existsb (fun x => eqb x val) v.

(** [Signature_Scheme::all_available_schemes] *)
Definition all_available_schemes : list Signature_Scheme :=
  [ of_code RSA_PSS_SHA384;
    of_code RSA_PSS_SHA256;
    of_code RSA_PSS_SHA512;

    of_code RSA_PKCS1_SHA384;
    of_code RSA_PKCS1_SHA512;
    of_code RSA_PKCS1_SHA256;

    of_code ECDSA_SHA384;
    of_code ECDSA_SHA512;
    of_code ECDSA_SHA256 ].

(** [Signature_Scheme::is_available] *)
Definition is_available (s : Signature_Scheme) : bool :=
  value_exists all_available_schemes s.

(** [Signature_Scheme::is_set] *)
Definition is_set (s : Signature_Scheme) : bool :=
  negb (m_code s =? NONE).

(** [Signature_Scheme::to_string] *)
Definition to_string (s : Signature_Scheme) : string :=
  switch (m_code s)
    [ ([RSA_PKCS1_SHA1], "RSA_PKCS1_SHA1");
      ([RSA_PKCS1_SHA256], "RSA_PKCS1_SHA256");
      ([RSA_PKCS1_SHA384], "RSA_PKCS1_SHA384");
      ([RSA_PKCS1_SHA512], "RSA_PKCS1_SHA512");

      ([ECDSA_SHA1], "ECDSA_SHA1");
      ([ECDSA_SHA256], "ECDSA_SHA256");
      ([ECDSA_SHA384], "ECDSA_SHA384");
      ([ECDSA_SHA512], "ECDSA_SHA512");

      ([RSA_PSS_SHA256], "RSA_PSS_SHA256");
      ([RSA_PSS_SHA384], "RSA_PSS_SHA384");
      ([RSA_PSS_SHA512], "RSA_PSS_SHA512");

      ([EDDSA_25519], "EDDSA_25519");
      ([EDDSA_448], "EDDSA_448");

      ([DSA_SHA1], "DSA_SHA1");
      ([DSA_SHA256], "DSA_SHA256");
      ([DSA_SHA384], "DSA_SHA384");
      ([DSA_SHA512], "DSA_SHA512") ]
    ("Unknown signature scheme: " ++ std_to_string (m_code s))%string.

(** [Signature_Scheme::hash_function_name] *)
Definition hash_function_name (s : Signature_Scheme) : string :=
  switch (m_code s)
    [ ([RSA_PKCS1_SHA1; ECDSA_SHA1; DSA_SHA1], "SHA-1");
      ([ECDSA_SHA256; RSA_PKCS1_SHA256; RSA_PSS_SHA256; DSA_SHA256], "SHA-256");
      ([ECDSA_SHA384; RSA_PKCS1_SHA384; RSA_PSS_SHA384; DSA_SHA384], "SHA-384");
      ([ECDSA_SHA512; RSA_PKCS1_SHA512; RSA_PSS_SHA512; DSA_SHA512], "SHA-512");
      ([EDDSA_25519; EDDSA_448], "Pure") ]
    "Unknown hash function".

(** [Signature_Scheme::padding_string] *)
Definition padding_string (s : Signature_Scheme) : string :=
  switch (m_code s)
    [ ([RSA_PKCS1_SHA1], "EMSA_PKCS1(SHA-1)");
      ([RSA_PKCS1_SHA256], "EMSA_PKCS1(SHA-256)");
      ([RSA_PKCS1_SHA384], "EMSA_PKCS1(SHA-384)");
      ([RSA_PKCS1_SHA512], "EMSA_PKCS1(SHA-512)");

      ([ECDSA_SHA1], "EMSA1(SHA-1)");
      ([ECDSA_SHA256], "EMSA1(SHA-256)");
      ([ECDSA_SHA384], "EMSA1(SHA-384)");
      ([ECDSA_SHA512], "EMSA1(SHA-512)");

      ([RSA_PSS_SHA256], "PSSR(SHA-256,MGF1,32)");
      ([RSA_PSS_SHA384], "PSSR(SHA-384,MGF1,48)");
      ([RSA_PSS_SHA512], "PSSR(SHA-512,MGF1,64)");

      ([EDDSA_25519], "Pure");
      ([EDDSA_448], "Pure") ]
    "Unknown padding".

(** [Signature_Scheme::algorithm_name] *)
Definition algorithm_name (s : Signature_Scheme) : string :=
  switch (m_code s)
    [ ([RSA_PKCS1_SHA1; RSA_PKCS1_SHA256; RSA_PKCS1_SHA384; RSA_PKCS1_SHA512;
        RSA_PSS_SHA256; RSA_PSS_SHA384; RSA_PSS_SHA512], "RSA");
      ([ECDSA_SHA1; ECDSA_SHA256; ECDSA_SHA384; ECDSA_SHA512], "ECDSA");
      ([EDDSA_25519], "Ed25519");
      ([EDDSA_448], "Ed448");
      ([DSA_SHA1; DSA_SHA256; DSA_SHA384; DSA_SHA512], "DSA") ]
    "Unknown algorithm".

(** [Signature_Scheme::format] *)
Definition format (s : Signature_Scheme) : option Signature_Format :=
  switch (m_code s)
    [ ([RSA_PKCS1_SHA1; RSA_PKCS1_SHA256; RSA_PKCS1_SHA384; RSA_PKCS1_SHA512;
        RSA_PSS_SHA256; RSA_PSS_SHA384; RSA_PSS_SHA512], Some IEEE_1363);
      ([ECDSA_SHA1; ECDSA_SHA256; ECDSA_SHA384; ECDSA_SHA512;
        EDDSA_25519; EDDSA_448;
        DSA_SHA1; DSA_SHA256; DSA_SHA384; DSA_SHA512], Some DER_SEQUENCE) ]
    None.

(** [Signature_Scheme::is_compatible_with] *)
Definition is_compatible_with (s : Signature_Scheme)
    (protocol_version : Protocol_Version) : bool :=
  if String.eqb (hash_function_name s) "SHA-1" then false
  else if negb (is_pre_tls_13 protocol_version)
          && ((m_code s =? RSA_PKCS1_SHA1)
              || (m_code s =? RSA_PKCS1_SHA256)
              || (m_code s =? RSA_PKCS1_SHA384)
              || (m_code s =? RSA_PKCS1_SHA512))
  then false
  else true.

(** [Signature_Scheme::is_suitable_for] *)
Definition is_suitable_for (s : Signature_Scheme) (private_key : Private_Key) : bool :=
  if negb (String.eqb (algorithm_name s) (algo_name private_key)) then false
  else
    let keylen := key_length private_key in
    if keylen <=? 250 then false
    else if (m_code s =? ECDSA_SHA256)
            && negb ((keylen >=? 250) && (keylen <=? 350)) then false
    else if (m_code s =? ECDSA_SHA384)
            && negb ((keylen >=? 350) && (keylen <=? 450)) then false
    else if (m_code s =? ECDSA_SHA512)
            && negb ((keylen >=? 450) && (keylen <=? 550)) then false
    else true.

(** [Signature_Scheme::algorithm_identifier].  The DER encoding of a
    named curve is produced by [EC_Group(name).DER_encode(NamedCurve)]
    of [botan/ec_group.h], which is not among the sources: it is taken
    as a parameter. *)
Section Algorithm_Identifier.

Variable EC_Group_DER_encode : string -> list Byte.byte.

Definition algorithm_identifier (s : Signature_Scheme) : AlgorithmIdentifier :=
  switch (m_code s)
    [ ([ECDSA_SHA256],
       Build_AlgorithmIdentifier "ECDSA" (DER_PARAM (EC_Group_DER_encode "secp256r1")));
      ([ECDSA_SHA384],
       Build_AlgorithmIdentifier "ECDSA" (DER_PARAM (EC_Group_DER_encode "secp384r1")));
      ([ECDSA_SHA512],
       Build_AlgorithmIdentifier "ECDSA" (DER_PARAM (EC_Group_DER_encode "secp521r1")));
      ([EDDSA_25519],
       Build_AlgorithmIdentifier "Ed25519" USE_EMPTY_PARAM);
      ([RSA_PKCS1_SHA1; RSA_PKCS1_SHA256; RSA_PKCS1_SHA384; RSA_PKCS1_SHA512;
        RSA_PSS_SHA256; RSA_PSS_SHA384; RSA_PSS_SHA512],
       Build_AlgorithmIdentifier "RSA" USE_NULL_PARAM) ]
    AlgorithmIdentifier_empty.

End Algorithm_Identifier.

End Scheme.

(** ** Statements kept for comparison *)

(** The statement of C2 as it is written: every RSA-PKCS1 code is
    accepted for TLS 1.2 and refused for TLS 1.3, every RSA-PSS code is
    accepted for both. *)
Definition pkcs1_pss_compatibility_as_stated : Prop :=
  Forall (fun c =>
            Scheme.is_compatible_with (Scheme.of_code c) TLS_V12 = true
            /\ Scheme.is_compatible_with (Scheme.of_code c) TLS_V13 = false)
         Code.rsa_pkcs1_codes
  /\ Forall (fun c =>
               Scheme.is_compatible_with (Scheme.of_code c) TLS_V12 = true
               /\ Scheme.is_compatible_with (Scheme.of_code c) TLS_V13 = true)
            Code.rsa_pss_codes.

(** ** Code sets read off the tables of the source *)

(** The codes of the registry, in its order. *)
Definition offered_codes : list Z :=
  map m_code Scheme.all_available_schemes.

(** The ECDSA codes for which [is_suitable_for] has a key-length band. *)
Definition banded_codes : list Z :=
  [Code.ECDSA_SHA256; Code.ECDSA_SHA384; Code.ECDSA_SHA512].

(** The [case] labels of [padding_string]: the DSA codes are not among
    them. *)
Definition padded_codes : list Z :=
  Code.rsa_pkcs1_codes ++ Code.ecdsa_codes ++ Code.rsa_pss_codes
  ++ Code.eddsa_codes.

(** ** Reasoning about [switch] *)

Lemma has_label_In (c : Z) (labels : list Z) :
  has_label c labels = true <-> In c labels.
Proof.
  unfold has_label. rewrite existsb_exists. split.
  - intros [k [Hin Heq]]. apply Z.eqb_eq in Heq. now subst k.
  - intros Hin. exists c. split; [assumption | apply Z.eqb_refl].
Qed.

Lemma has_label_not_In (c : Z) (labels : list Z) :
  has_label c labels = false <-> ~ In c labels.
Proof.
  rewrite <- has_label_In. destruct (has_label c labels); split; intros H.
  - discriminate.
  - exfalso. now apply H.
  - discriminate.
  - reflexivity.
Qed.

Lemma covered_by_incl (univ ls : list Z) :
  covered_by univ ls = true -> incl ls univ.
Proof.
  unfold covered_by. rewrite forallb_forall. intros H k Hk.
  apply has_label_In. now apply H.
Qed.

(** A code that is no label of the switch reaches the [default] arm. *)
Lemma switch_default {A : Type} (c : Z) (arms : list (list Z * A)) (d : A) :
  ~ In c (labels_of arms) -> switch c arms d = d.
Proof.
  induction arms as [| [labels body] rest IH]; intros Hout; simpl.
  - reflexivity.
  - unfold labels_of in Hout. simpl in Hout. rewrite in_app_iff in Hout.
    assert (Hl : has_label c labels = false).
    { apply has_label_not_In. tauto. }
    rewrite Hl. apply IH. unfold labels_of. tauto.
Qed.

(** The same, for a code outside a set of codes that covers the labels. *)
Lemma switch_outside {A : Type} (univ : list Z) (c : Z)
    (arms : list (list Z * A)) (d : A) :
  covered_by univ (labels_of arms) = true ->
  ~ In c univ ->
  switch c arms d = d.
Proof.
  intros Hcov Hout. apply switch_default. intros Hin.
  apply Hout. now apply (covered_by_incl _ _ Hcov).
Qed.

(** Whatever a switch returns comes from the default arm, taken because no
    label matched, or from an arm one of whose labels is the code. *)
Lemma switch_inv {A : Type} (c : Z) (arms : list (list Z * A)) (d : A) :
  (switch c arms d = d /\ ~ In c (labels_of arms))
  \/ exists labels body,
       In (labels, body) arms /\ In c labels /\ switch c arms d = body.
Proof.
  induction arms as [| [labels body] rest IH]; simpl.
  - left. split; [reflexivity | intros []].
  - destruct (has_label c labels) eqn:Hl.
    + right. exists labels, body. apply has_label_In in Hl. tauto.
    + apply has_label_not_In in Hl.
      destruct IH as [[Hd Hout] | [ls [b [Hin [Hc Hs]]]]].
      * left. split; [assumption |].
        unfold labels_of in *. simpl. rewrite in_app_iff. tauto.
      * right. exists ls, b. tauto.
Qed.

(** A switch whose arms all return the same kind of value as the default. *)
Lemma switch_range {A : Type} (c : Z) (arms : list (list Z * A)) (d : A) :
  In (switch c arms d) (d :: map snd arms).
Proof.
  destruct (switch_inv c arms d) as [[Hd _] | [ls [b [Hin [_ Hs]]]]].
  - left. now rewrite Hd.
  - right. rewrite Hs. apply in_map_iff. now exists (ls, b).
Qed.

(** ** Conversions to [uint16_t] *)

Lemma to_uint16_range (z : Z) : is_uint16 (to_uint16 z).
Proof.
  unfold is_uint16, to_uint16, uint16_max.
  pose proof (Z.mod_pos_bound z 65536). lia.
Qed.

Lemma to_uint16_id (z : Z) : is_uint16 z -> to_uint16 z = z.
Proof.
  unfold is_uint16, to_uint16, uint16_max. intros H.
  apply Z.mod_small. lia.
Qed.

(** A scheme is its code. *)
Lemma scheme_eta (s : Signature_Scheme) : s = Scheme.of_code (m_code s).
Proof. now destruct s. Qed.

Lemma scheme_eqb_eq (a b : Signature_Scheme) :
  Scheme.eqb a b = true <-> a = b.
Proof.
  unfold Scheme.eqb. rewrite Z.eqb_eq. destruct a, b; simpl.
  split; intros H; [now subst | now injection H].
Qed.

(** ** The registry *)

Lemma is_available_iff (s : Signature_Scheme) :
  Scheme.is_available s = true <-> In s Scheme.all_available_schemes.
Proof.
  unfold Scheme.is_available, Scheme.value_exists.
  rewrite existsb_exists. split.
  - intros [x [Hin Heq]]. apply scheme_eqb_eq in Heq. now subst x.
  - intros Hin. exists s. split; [assumption | now apply scheme_eqb_eq].
Qed.

(** ** Sanity checks on concrete inputs *)

Example to_string_pss256 :
  Scheme.to_string (Scheme.of_uint16 0x0804) = "RSA_PSS_SHA256".
Proof. reflexivity. Qed.

Example to_string_unknown :
  Scheme.to_string (Scheme.of_uint16 4660) = "Unknown signature scheme: 4660".
Proof. reflexivity. Qed.

Example to_string_none :
  Scheme.to_string Scheme.default = "Unknown signature scheme: 0".
Proof. reflexivity. Qed.

Example pre13_values :
  is_pre_tls_13 TLS_V12 = true /\ is_pre_tls_13 TLS_V13 = false.
Proof. split; reflexivity. Qed.

(** ** Protocol compatibility *)

Lemma hash_sha1_iff (s : Signature_Scheme) :
  Scheme.hash_function_name s = "SHA-1" <-> In (m_code s) Code.sha1_codes.
Proof.
  split.
  - intros H. unfold Scheme.hash_function_name in H.
    match type of H with switch ?c ?arms ?d = _ =>
      destruct (switch_inv c arms d) as [[Hd _] | [ls [b [Hin [Hc Hs]]]]]
    end.
    + rewrite Hd in H. discriminate H.
    + rewrite Hs in H. simpl in Hin.
      repeat (destruct Hin as [Hin | Hin];
              [injection Hin as <- <-; first [exact Hc | discriminate H] |]).
      destruct Hin.
  - intros H. rewrite (scheme_eta s). simpl in H.
    repeat (destruct H as [<- | H]; [reflexivity |]). destruct H.
Qed.

(** C1: a scheme whose hash function is SHA-1, that is one of the codes
    RSA_PKCS1_SHA1, ECDSA_SHA1 and DSA_SHA1, is compatible with no protocol
    version, pre-TLS-1.3 or not. *)
Theorem sha1_never_compatible (s : Signature_Scheme) (v : Protocol_Version) :
  Scheme.hash_function_name s = "SHA-1" \/ In (m_code s) Code.sha1_codes ->
  Scheme.is_compatible_with s v = false.
Proof.
  intros H.
  assert (Hh : Scheme.hash_function_name s = "SHA-1").
  { destruct H as [H | H]; [exact H | now apply hash_sha1_iff]. }
  unfold Scheme.is_compatible_with. rewrite Hh. reflexivity.
Qed.

Lemma sha1_never_compatible_witness :
  Scheme.hash_function_name (Scheme.of_code Code.ECDSA_SHA1) = "SHA-1"
  /\ Scheme.is_compatible_with (Scheme.of_code Code.ECDSA_SHA1) TLS_V12 = false
  /\ Scheme.is_compatible_with (Scheme.of_code Code.ECDSA_SHA1) TLS_V13 = false.
Proof.
  split; [reflexivity |].
  split; apply sha1_never_compatible; left; reflexivity.
Defined.

(** [is_compatible_with] reads its version argument through
    [is_pre_tls_13] only. *)
Lemma is_compatible_with_pre13 (s : Signature_Scheme) (v : Protocol_Version) :
  Scheme.is_compatible_with s v =
  negb (String.eqb (Scheme.hash_function_name s) "SHA-1")
  && (is_pre_tls_13 v || negb (has_label (m_code s) Code.rsa_pkcs1_codes)).
Proof.
  unfold Scheme.is_compatible_with, has_label, Code.rsa_pkcs1_codes.
  cbn [existsb]. rewrite orb_false_r.
  destruct (String.eqb (Scheme.hash_function_name s) "SHA-1"); [reflexivity |].
  destruct (is_pre_tls_13 v); cbn [negb andb orb]; [reflexivity |].
  rewrite !orb_assoc.
  now destruct (_ || _).
Qed.

(** C2, counterexample: RSA_PKCS1_SHA1 is one of the four RSA-PKCS1 codes
    and TLS 1.2 is a pre-TLS-1.3 version, yet the scheme is refused for
    TLS 1.2, because the SHA-1 test comes first. *)
Lemma pkcs1_sha1_refused_for_tls12 :
  In Code.RSA_PKCS1_SHA1 Code.rsa_pkcs1_codes
  /\ is_pre_tls_13 TLS_V12 = true
  /\ Scheme.is_compatible_with (Scheme.of_code Code.RSA_PKCS1_SHA1) TLS_V12 = false
  /\ ~ pkcs1_pss_compatibility_as_stated.
Proof.
  split; [left; reflexivity |].
  split; [reflexivity |].
  split; [reflexivity |].
  intros [Hpkcs1 _].
  unfold Code.rsa_pkcs1_codes in Hpkcs1.
  apply Forall_inv in Hpkcs1. destruct Hpkcs1 as [H12 _].
  discriminate H12.
Qed.

(** C2, amended: the three RSA-PKCS1 codes with SHA-256, SHA-384 and
    SHA-512 are accepted for a pre-TLS-1.3 version such as TLS 1.2 and
    refused for TLS 1.3; RSA_PKCS1_SHA1 is refused for both; the three
    RSA-PSS codes are accepted for both. *)
Theorem pkcs1_pss_compatibility :
  is_pre_tls_13 TLS_V12 = true
  /\ is_pre_tls_13 TLS_V13 = false
  /\ Forall (fun c =>
               Scheme.is_compatible_with (Scheme.of_code c) TLS_V12 = true
               /\ Scheme.is_compatible_with (Scheme.of_code c) TLS_V13 = false)
            [Code.RSA_PKCS1_SHA256; Code.RSA_PKCS1_SHA384; Code.RSA_PKCS1_SHA512]
  /\ Scheme.is_compatible_with (Scheme.of_code Code.RSA_PKCS1_SHA1) TLS_V12 = false
  /\ Scheme.is_compatible_with (Scheme.of_code Code.RSA_PKCS1_SHA1) TLS_V13 = false
  /\ Forall (fun c =>
               Scheme.is_compatible_with (Scheme.of_code c) TLS_V12 = true
               /\ Scheme.is_compatible_with (Scheme.of_code c) TLS_V13 = true)
            Code.rsa_pss_codes
  /\ forall v : Protocol_Version,
       Forall (fun c =>
                 Scheme.is_compatible_with (Scheme.of_code c) v = is_pre_tls_13 v)
              [Code.RSA_PKCS1_SHA256; Code.RSA_PKCS1_SHA384; Code.RSA_PKCS1_SHA512]
       /\ Scheme.is_compatible_with (Scheme.of_code Code.RSA_PKCS1_SHA1) v = false
       /\ Forall (fun c =>
                    Scheme.is_compatible_with (Scheme.of_code c) v = true)
                 Code.rsa_pss_codes.
Proof.
  do 2 (split; [reflexivity |]).
  split; [repeat constructor |].
  do 2 (split; [reflexivity |]).
  split; [repeat constructor |].
  intros v.
  repeat split; repeat constructor;
    rewrite is_compatible_with_pre13; cbn;
    try rewrite orb_false_r; try rewrite orb_true_r; reflexivity.
Qed.

(** C10: compatibility is monotone in protocol age (a scheme accepted for
    a version that is not pre-TLS-1.3 is accepted for every pre-TLS-1.3
    version), and two versions with the same value of the pre-TLS-1.3
    predicate give the same answer for every scheme. *)
Theorem compatibility_monotone (s : Signature_Scheme) :
  (forall v_old v_new : Protocol_Version,
     is_pre_tls_13 v_old = true ->
     is_pre_tls_13 v_new = false ->
     Scheme.is_compatible_with s v_new = true ->
     Scheme.is_compatible_with s v_old = true)
  /\ (forall v1 v2 : Protocol_Version,
        is_pre_tls_13 v1 = is_pre_tls_13 v2 ->
        Scheme.is_compatible_with s v1 = Scheme.is_compatible_with s v2).
Proof.
  split.
  - intros v_old v_new Hold Hnew. rewrite !is_compatible_with_pre13.
    rewrite Hold, Hnew. cbn [orb].
    destruct (negb (String.eqb _ _)); cbn [andb]; [reflexivity | discriminate].
  - intros v1 v2 Heq. rewrite !is_compatible_with_pre13. now rewrite Heq.
Qed.

Lemma compatibility_monotone_witness :
  Scheme.is_compatible_with (Scheme.of_code Code.RSA_PSS_SHA256) TLS_V12 = true
  /\ Scheme.is_compatible_with (Scheme.of_code Code.RSA_PKCS1_SHA256) TLS_V12
     = Scheme.is_compatible_with (Scheme.of_code Code.RSA_PKCS1_SHA256)
         (Build_Protocol_Version 3 1).
Proof.
  split.
  - apply (proj1 (compatibility_monotone (Scheme.of_code Code.RSA_PSS_SHA256))
             TLS_V12 TLS_V13); reflexivity.
  - apply (proj2 (compatibility_monotone (Scheme.of_code Code.RSA_PKCS1_SHA256))
             TLS_V12 (Build_Protocol_Version 3 1)); reflexivity.
Defined.

(** ** Descriptors of unrecognized codes *)

(** The decimal rendering loses nothing: it parses back to the number. *)
Lemma std_to_string_parses (z : Z) :
  NilZero.int_of_string (std_to_string z) = Some (Z.to_int z).
Proof.
  unfold std_to_string. apply NilZero.isi; destruct z; simpl; intros H;
    try discriminate H; injection H as H;
    now apply DecimalPos.Unsigned.to_uint_nonnil in H.
Qed.

Lemma std_to_string_inj (z1 z2 : Z) :
  std_to_string z1 = std_to_string z2 -> z1 = z2.
Proof.
  intros H. apply DecimalZ.to_int_inj.
  pose proof (std_to_string_parses z1) as H1.
  rewrite H, std_to_string_parses in H1. now injection H1.
Qed.

Lemma append_inj_r (p a b : string) :
  (p ++ a)%string = (p ++ b)%string -> a = b.
Proof.
  induction p as [| ch p IH]; simpl; intros H.
  - exact H.
  - injection H as H. now apply IH.
Qed.

(** Each descriptor switch names recognized codes only. *)
Ltac unrecognized_default :=
  match goal with
  | Hout : ~ In _ Code.recognized_codes |- switch _ _ _ = _ =>
      apply (switch_outside Code.recognized_codes); [reflexivity | exact Hout]
  end.

(** C8: the descriptor functions are total functions returning ordinary
    values; on a code outside the recognized enumeration [to_string]
    returns the fallback string that embeds the code in decimal,
    [hash_function_name] returns "Unknown hash function", [padding_string]
    returns "Unknown padding" and [algorithm_name] returns "Unknown
    algorithm". *)
Theorem unrecognized_code_descriptors (s : Signature_Scheme) :
  ~ In (m_code s) Code.recognized_codes ->
  Scheme.to_string s
    = ("Unknown signature scheme: " ++ std_to_string (m_code s))%string
  /\ NilZero.int_of_string (std_to_string (m_code s)) = Some (Z.to_int (m_code s))
  /\ Scheme.hash_function_name s = "Unknown hash function"
  /\ Scheme.padding_string s = "Unknown padding"
  /\ Scheme.algorithm_name s = "Unknown algorithm".
Proof.
  intros Hout.
  split; [unfold Scheme.to_string; unrecognized_default |].
  split; [apply std_to_string_parses |].
  split; [unfold Scheme.hash_function_name; unrecognized_default |].
  split; [unfold Scheme.padding_string; unrecognized_default |].
  unfold Scheme.algorithm_name; unrecognized_default.
Qed.

Lemma unrecognized_code_descriptors_witness :
  Scheme.to_string (Scheme.of_uint16 0xFFFF) = "Unknown signature scheme: 65535"
  /\ Scheme.hash_function_name (Scheme.of_uint16 0xFFFF) = "Unknown hash function"
  /\ Scheme.padding_string (Scheme.of_uint16 0xFFFF) = "Unknown padding"
  /\ Scheme.algorithm_name (Scheme.of_uint16 0xFFFF) = "Unknown algorithm".
Proof.
  assert (Hout : ~ In (m_code (Scheme.of_uint16 0xFFFF)) Code.recognized_codes).
  { cbv. intros H.
    repeat (destruct H as [H | H]; [discriminate H |]). exact H. }
  destruct (unrecognized_code_descriptors (Scheme.of_uint16 0xFFFF) Hout)
    as [Hs [_ [Hh [Hp Ha]]]].
  repeat split; assumption.
Defined.

(** Two unrecognized codes with the same [to_string] are the same code. *)
Lemma unrecognized_to_string_inj (s1 s2 : Signature_Scheme) :
  ~ In (m_code s1) Code.recognized_codes ->
  ~ In (m_code s2) Code.recognized_codes ->
  Scheme.to_string s1 = Scheme.to_string s2 -> s1 = s2.
Proof.
  intros H1 H2 Heq.
  unfold Scheme.to_string in Heq.
  rewrite (switch_outside Code.recognized_codes) in Heq by (reflexivity || assumption).
  rewrite (switch_outside Code.recognized_codes (m_code s2)) in Heq
    by (reflexivity || assumption).
  apply append_inj_r, std_to_string_inj in Heq.
  destruct s1, s2; simpl in Heq. now subst.
Qed.

(** Every descriptor value comes from a fixed finite table. *)
Lemma hash_function_name_range (s : Signature_Scheme) :
  In (Scheme.hash_function_name s)
     ["Unknown hash function"; "SHA-1"; "SHA-256"; "SHA-384"; "SHA-512"; "Pure"].
Proof.
  unfold Scheme.hash_function_name.
  match goal with
  | |- In (switch ?c ?arms ?d) _ => exact (switch_range c arms d)
  end.
Qed.

Lemma algorithm_name_range (s : Signature_Scheme) :
  In (Scheme.algorithm_name s)
     ["Unknown algorithm"; "RSA"; "ECDSA"; "Ed25519"; "Ed448"; "DSA"].
Proof.
  unfold Scheme.algorithm_name.
  match goal with
  | |- In (switch ?c ?arms ?d) _ => exact (switch_range c arms d)
  end.
Qed.

(** ** Signature format *)

(** C7: [format] is IEEE_1363 for the seven RSA codes, DER_SEQUENCE for
    the ECDSA, EdDSA and DSA codes, and absent for every other code. *)
Theorem format_by_family :
  Forall (fun c => Scheme.format (Scheme.of_code c) = Some IEEE_1363)
         Code.rsa_codes
  /\ Forall (fun c => Scheme.format (Scheme.of_code c) = Some DER_SEQUENCE)
            (Code.ecdsa_codes ++ Code.eddsa_codes ++ Code.dsa_codes)
  /\ forall s : Signature_Scheme,
       ~ In (m_code s) Code.recognized_codes -> Scheme.format s = None.
Proof.
  split; [repeat constructor |].
  split; [repeat constructor |].
  intros s Hout. unfold Scheme.format. unrecognized_default.
Qed.

Lemma format_by_family_witness :
  Scheme.format (Scheme.of_uint16 0) = None
  /\ Scheme.format (Scheme.of_uint16 0x0809) = None.
Proof.
  split; apply (proj2 (proj2 format_by_family)); cbv; intros H;
    repeat (destruct H as [H | H]; [discriminate H |]); exact H.
Defined.

(** ** Certificate algorithm identifiers *)

(** C3: [algorithm_identifier] pairs "ECDSA" with the DER encoding of
    secp256r1, secp384r1 and secp521r1 for ECDSA_SHA256, ECDSA_SHA384 and
    ECDSA_SHA512, pairs "Ed25519" with explicitly empty parameters for
    EDDSA_25519, pairs "RSA" with explicitly null parameters for the seven
    RSA codes, and is the default-constructed identifier for every other
    code, recognized or not. *)
Theorem algorithm_identifier_by_code (der : string -> list Byte.byte) :
  Scheme.algorithm_identifier der (Scheme.of_code Code.ECDSA_SHA256)
    = Build_AlgorithmIdentifier "ECDSA" (DER_PARAM (der "secp256r1"))
  /\ Scheme.algorithm_identifier der (Scheme.of_code Code.ECDSA_SHA384)
       = Build_AlgorithmIdentifier "ECDSA" (DER_PARAM (der "secp384r1"))
  /\ Scheme.algorithm_identifier der (Scheme.of_code Code.ECDSA_SHA512)
       = Build_AlgorithmIdentifier "ECDSA" (DER_PARAM (der "secp521r1"))
  /\ Scheme.algorithm_identifier der (Scheme.of_code Code.EDDSA_25519)
       = Build_AlgorithmIdentifier "Ed25519" USE_EMPTY_PARAM
  /\ Forall (fun c => Scheme.algorithm_identifier der (Scheme.of_code c)
                      = Build_AlgorithmIdentifier "RSA" USE_NULL_PARAM)
            Code.rsa_codes
  /\ forall s : Signature_Scheme,
       ~ In (m_code s) Code.identified_codes ->
       Scheme.algorithm_identifier der s = AlgorithmIdentifier_empty.
Proof.
  do 4 (split; [reflexivity |]).
  split; [repeat constructor |].
  intros s Hout. unfold Scheme.algorithm_identifier.
  apply (switch_outside Code.identified_codes); [reflexivity | exact Hout].
Qed.

Lemma algorithm_identifier_by_code_witness :
  Scheme.algorithm_identifier (fun _ => []) (Scheme.of_code Code.ECDSA_SHA1)
    = AlgorithmIdentifier_empty
  /\ Scheme.algorithm_identifier (fun _ => []) (Scheme.of_uint16 0x1234)
       = AlgorithmIdentifier_empty.
Proof.
  split;
    apply (proj2 (proj2 (proj2 (proj2 (proj2
             (algorithm_identifier_by_code (fun _ => []))))))); cbv; intros H;
    repeat (destruct H as [H | H]; [discriminate H |]); exact H.
Defined.

(** ** The registry of offered schemes *)

(** Where a scheme of a given family sits in the registry: the RSA-PSS
    schemes occupy positions 0 to 2, the RSA-PKCS1 schemes positions 3 to
    5 and the ECDSA schemes positions 6 to 8. *)
Lemma registry_position (i : nat) (a : Signature_Scheme) :
  nth_error Scheme.all_available_schemes i = Some a ->
  (In (m_code a) Code.rsa_pss_codes -> (i < 3)%nat)
  /\ (In (m_code a) Code.rsa_pkcs1_codes -> (3 <= i < 6)%nat)
  /\ (In (m_code a) Code.ecdsa_codes -> (6 <= i < 9)%nat).
Proof.
  intros Hi.
  do 9 (destruct i as [| i];
        [ injection Hi as <-;
          (split; [| split]); intros H; try lia; cbv in H;
          repeat (destruct H as [H | H]; [discriminate H |]); contradiction
        | ]).
  simpl in Hi. destruct i; discriminate Hi.
Qed.

(** C6: the registry lists the three RSA-PSS schemes, then the three
    RSA-PKCS1 schemes whose hash is not SHA-1, then the three ECDSA
    schemes whose hash is not SHA-1, nine entries in all, and nothing
    else: a scheme is listed exactly when its code is an RSA-PSS,
    RSA-PKCS1 or ECDSA code and its hash function is not SHA-1, so
    EDDSA_25519 and EDDSA_448 are not listed; every RSA-PSS entry comes
    before every RSA-PKCS1 entry, which comes before every ECDSA entry;
    each listed scheme is available and has a name that is not the
    "Unknown signature scheme" fallback. *)
Theorem registry_order_and_content :
  (exists pss pkcs1 ecdsa : list Signature_Scheme,
      Scheme.all_available_schemes = (pss ++ pkcs1 ++ ecdsa)%list
      /\ (forall s, In s pss <-> In (m_code s) Code.rsa_pss_codes)
      /\ (forall s, In s pkcs1 <->
                    In (m_code s) Code.rsa_pkcs1_codes
                    /\ Scheme.hash_function_name s <> "SHA-1")
      /\ (forall s, In s ecdsa <->
                    In (m_code s) Code.ecdsa_codes
                    /\ Scheme.hash_function_name s <> "SHA-1"))
  /\ List.length Scheme.all_available_schemes = 9%nat
  /\ (forall s,
        In s Scheme.all_available_schemes <->
        In (m_code s) (Code.rsa_pss_codes ++ Code.rsa_pkcs1_codes ++ Code.ecdsa_codes)
        /\ Scheme.hash_function_name s <> "SHA-1")
  /\ (forall (i j : nat) (a b : Signature_Scheme),
        nth_error Scheme.all_available_schemes i = Some a ->
        nth_error Scheme.all_available_schemes j = Some b ->
        (In (m_code a) Code.rsa_pss_codes ->
         In (m_code b) Code.rsa_pkcs1_codes -> (i < j)%nat)
        /\ (In (m_code a) Code.rsa_pkcs1_codes ->
            In (m_code b) Code.ecdsa_codes -> (i < j)%nat)
        /\ (In (m_code a) Code.rsa_pss_codes ->
            In (m_code b) Code.ecdsa_codes -> (i < j)%nat))
  /\ Forall (fun s =>
               Scheme.hash_function_name s <> "SHA-1"
               /\ m_code s <> Code.EDDSA_25519
               /\ m_code s <> Code.EDDSA_448
               /\ Scheme.is_available s = true
               /\ String.prefix "Unknown signature scheme" (Scheme.to_string s) = false
               /\ Scheme.to_string s
                  <> ("Unknown signature scheme: " ++ std_to_string (m_code s))%string)
            Scheme.all_available_schemes.
Proof.
  assert (Hmem : forall (l : list Signature_Scheme) (codes : list Z) s,
             l = map Scheme.of_code codes ->
             (In s l <-> In (m_code s) codes)).
  { intros l codes s ->. rewrite in_map_iff. split.
    - intros [c [<- Hc]]. exact Hc.
    - intros H. exists (m_code s). split; [now destruct s | exact H]. }
  assert (Hsha1 : forall s (codes : list Z),
             (In (m_code s) codes /\ Scheme.hash_function_name s <> "SHA-1")
             <-> In (m_code s) codes /\ ~ In (m_code s) Code.sha1_codes).
  { intros s codes. now rewrite hash_sha1_iff. }
  split; [| split; [reflexivity | split; [| split]]].
  - exists (firstn 3 Scheme.all_available_schemes),
           (firstn 3 (skipn 3 Scheme.all_available_schemes)),
           (skipn 6 Scheme.all_available_schemes).
    split; [reflexivity |].
    split; [| split]; intros s.
    + rewrite (Hmem _ [Code.RSA_PSS_SHA384; Code.RSA_PSS_SHA256; Code.RSA_PSS_SHA512])
        by reflexivity.
      cbv. tauto.
    + rewrite Hsha1,
        (Hmem _ [Code.RSA_PKCS1_SHA384; Code.RSA_PKCS1_SHA512; Code.RSA_PKCS1_SHA256])
        by reflexivity.
      cbv. intuition congruence.
    + rewrite Hsha1,
        (Hmem _ [Code.ECDSA_SHA384; Code.ECDSA_SHA512; Code.ECDSA_SHA256])
        by reflexivity.
      cbv. intuition congruence.
  - intros s. rewrite Hsha1, (Hmem _ offered_codes) by reflexivity.
    cbv. intuition congruence.
  - intros i j a b Hi Hj.
    destruct (registry_position i a Hi) as [Hia [Hib Hic]].
    destruct (registry_position j b Hj) as [Hja [Hjb Hjc]].
    (split; [| split]); intros Ha Hb;
      try specialize (Hia Ha); try specialize (Hib Ha);
      try specialize (Hjb Hb); try specialize (Hjc Hb); lia.
  - repeat (apply Forall_cons || apply Forall_nil);
      (split; [discriminate |]);
      (split; [discriminate |]);
      (split; [discriminate |]);
      (split; [reflexivity |]);
      (split; [reflexivity | discriminate]).
Qed.

(** ** Key suitability *)

(** C5: a key of at most 250 bits is suitable for no scheme, whatever the
    scheme and whether or not the key's algorithm matches it. *)
Theorem short_key_never_suitable (s : Signature_Scheme) (k : Private_Key) :
  key_length k <= 250 -> Scheme.is_suitable_for s k = false.
Proof.
  intros Hlen. unfold Scheme.is_suitable_for.
  destruct (negb _); [reflexivity |].
  apply Z.leb_le in Hlen. cbv zeta. now rewrite Hlen.
Qed.

Lemma short_key_never_suitable_witness :
  Scheme.algorithm_name (Scheme.of_code Code.RSA_PSS_SHA256) = "RSA"
  /\ Scheme.is_suitable_for (Scheme.of_code Code.RSA_PSS_SHA256)
       (Build_Private_Key "RSA" 250) = false.
Proof.
  split; [reflexivity |].
  apply short_key_never_suitable. simpl. lia.
Defined.

(** With a key of the matching family, an ECDSA scheme tests the key
    length against the floor and against the band of its hash. *)
Lemma is_suitable_for_ecdsa (k : Private_Key) :
  algo_name k = "ECDSA" ->
  Scheme.is_suitable_for (Scheme.of_code Code.ECDSA_SHA256) k
    = negb (key_length k <=? 250)
      && ((key_length k >=? 250) && (key_length k <=? 350))
  /\ Scheme.is_suitable_for (Scheme.of_code Code.ECDSA_SHA384) k
     = negb (key_length k <=? 250)
       && ((key_length k >=? 350) && (key_length k <=? 450))
  /\ Scheme.is_suitable_for (Scheme.of_code Code.ECDSA_SHA512) k
     = negb (key_length k <=? 250)
       && ((key_length k >=? 450) && (key_length k <=? 550)).
Proof.
  intros Hfam. unfold Scheme.is_suitable_for.
  repeat split;
    (replace (Scheme.algorithm_name _) with "ECDSA" by reflexivity);
    rewrite Hfam, String.eqb_refl; cbn;
    destruct (key_length k <=? 250); cbn; try reflexivity;
    now destruct (_ && _).
Qed.

(** C4: for a key of the ECDSA family, ECDSA_SHA256 is suitable exactly
    for key lengths above the 250-bit floor and within [250, 350],
    ECDSA_SHA384 for lengths within [350, 450] and ECDSA_SHA512 for
    lengths within [450, 550]; so ECDSA_SHA256 refuses 250 bits, accepts
    251 and 350 bits, and refuses 351 bits. *)
Theorem ecdsa_key_length_bands (k : Private_Key) :
  algo_name k = "ECDSA" ->
  (Scheme.is_suitable_for (Scheme.of_code Code.ECDSA_SHA256) k = true
     <-> 250 < key_length k /\ 250 <= key_length k <= 350)
  /\ (Scheme.is_suitable_for (Scheme.of_code Code.ECDSA_SHA384) k = true
        <-> 250 < key_length k /\ 350 <= key_length k <= 450)
  /\ (Scheme.is_suitable_for (Scheme.of_code Code.ECDSA_SHA512) k = true
        <-> 250 < key_length k /\ 450 <= key_length k <= 550)
  /\ Scheme.is_suitable_for (Scheme.of_code Code.ECDSA_SHA256)
       (Build_Private_Key (algo_name k) 250) = false
  /\ Scheme.is_suitable_for (Scheme.of_code Code.ECDSA_SHA256)
       (Build_Private_Key (algo_name k) 251) = true
  /\ Scheme.is_suitable_for (Scheme.of_code Code.ECDSA_SHA256)
       (Build_Private_Key (algo_name k) 350) = true
  /\ Scheme.is_suitable_for (Scheme.of_code Code.ECDSA_SHA256)
       (Build_Private_Key (algo_name k) 351) = false.
Proof.
  intros Hfam.
  destruct (is_suitable_for_ecdsa k Hfam) as [H256 [H384 H512]].
  rewrite H256, H384, H512.
  rewrite !andb_true_iff, !negb_true_iff, !Z.leb_gt, !Z.geb_le, !Z.leb_le.
  repeat (split; [lia |]).
  rewrite Hfam. repeat split; reflexivity.
Qed.

Lemma ecdsa_key_length_bands_witness :
  Scheme.is_suitable_for (Scheme.of_code Code.ECDSA_SHA256)
    (Build_Private_Key "ECDSA" 250) = false
  /\ Scheme.is_suitable_for (Scheme.of_code Code.ECDSA_SHA256)
       (Build_Private_Key "ECDSA" 251) = true
  /\ Scheme.is_suitable_for (Scheme.of_code Code.ECDSA_SHA256)
       (Build_Private_Key "ECDSA" 350) = true
  /\ Scheme.is_suitable_for (Scheme.of_code Code.ECDSA_SHA256)
       (Build_Private_Key "ECDSA" 351) = false
  /\ (Scheme.is_suitable_for (Scheme.of_code Code.ECDSA_SHA384)
        (Build_Private_Key "ECDSA" 384) = true
      <-> 250 < 384 /\ 350 <= 384 <= 450).
Proof.
  destruct (ecdsa_key_length_bands (Build_Private_Key "ECDSA" 384) eq_refl)
    as [_ [H384 [_ [H250 [H251 [H350 H351]]]]]].
  simpl in H250, H251, H350, H351.
  split; [exact H250 |].
  split; [exact H251 |].
  split; [exact H350 |].
  split; [exact H351 | exact H384].
Defined.

(** ** Construction from a wire code *)

(** C9: building a scheme from a 16-bit integer and reading its wire code
    back gives the same integer, for NONE and unrecognized codes as well;
    the construction is injective and preserves the order of codes. *)
Theorem wire_code_round_trip (c1 c2 : Z) :
  is_uint16 c1 -> is_uint16 c2 ->
  m_code (Scheme.of_uint16 c1) = c1
  /\ Scheme.wire_code (Scheme.of_uint16 c1) = c1
  /\ (Scheme.of_uint16 c1 = Scheme.of_uint16 c2 -> c1 = c2)
  /\ Scheme.eqb (Scheme.of_uint16 c1) (Scheme.of_uint16 c2) = (c1 =? c2)
  /\ (c1 < c2 <->
      Scheme.wire_code (Scheme.of_uint16 c1) < Scheme.wire_code (Scheme.of_uint16 c2)).
Proof.
  intros H1 H2.
  unfold Scheme.wire_code, Scheme.eqb, Scheme.of_uint16, Scheme.of_code.
  cbn [m_code]. rewrite !to_uint16_id by assumption.
  repeat split; try tauto.
  intros H. now injection H.
Qed.

Lemma wire_code_round_trip_witness :
  Scheme.wire_code (Scheme.of_uint16 0) = 0
  /\ Scheme.wire_code (Scheme.of_uint16 0xFFFF) = 0xFFFF
  /\ (0 < 0xFFFF <->
      Scheme.wire_code (Scheme.of_uint16 0) < Scheme.wire_code (Scheme.of_uint16 0xFFFF)).
Proof.
  assert (H0 : is_uint16 0) by (unfold is_uint16, uint16_max; lia).
  assert (Hmax : is_uint16 0xFFFF) by (unfold is_uint16, uint16_max; lia).
  destruct (wire_code_round_trip 0 0xFFFF H0 Hmax) as [_ [Hzero [_ [_ Hlt]]]].
  destruct (wire_code_round_trip 0xFFFF 0 Hmax H0) as [_ [Hffff _]].
  split; [exact Hzero |].
  split; [exact Hffff | exact Hlt].
Defined.

(** ** Case analysis on the code of a scheme *)

Lemma label_cases (c : Z) (labels : list Z) :
  In c labels \/ ~ In c labels.
Proof.
  destruct (has_label c labels) eqn:H.
  - left. now apply has_label_In.
  - right. now apply has_label_not_In.
Qed.

(** [In c l] for a list of literals, as a chain of equations. *)
Ltac each_code H tac :=
  cbv in H;
  repeat (destruct H as [H | H]; [try subst; tac |]);
  try contradiction.

(** Closes [In c l -> False] when [c] is outside a covering list. *)
Ltac outside Hout :=
  let H := fresh in
  intros H; apply Hout; cbv in H |- *; tauto.

(** ** Unset and available schemes *)

Lemma is_available_offered (s : Signature_Scheme) :
  Scheme.is_available s = true <-> In (m_code s) offered_codes.
Proof.
  rewrite is_available_iff. unfold offered_codes. rewrite in_map_iff. split.
  - intros H. now exists s.
  - intros [x [Hx Hin]]. destruct s, x; simpl in Hx. now subst.
Qed.

(** X1: a scheme is unset exactly when it is the default-constructed one
    (code NONE); the unset scheme is not available, so every available
    scheme is set. *)
Theorem unset_is_default (s : Signature_Scheme) :
  (Scheme.is_set s = false <-> s = Scheme.default)
  /\ (Scheme.is_available s = true -> Scheme.is_set s = true).
Proof.
  split.
  - unfold Scheme.is_set, Scheme.default. rewrite negb_false_iff, Z.eqb_eq.
    destruct s as [c]; simpl. split; intros H; [now subst | now injection H].
  - intros H. apply is_available_offered in H.
    destruct s as [c]; simpl in H.
    each_code H reflexivity.
Qed.

Lemma unset_is_default_witness :
  Scheme.is_set (Scheme.of_code Code.ECDSA_SHA384) = true
  /\ Scheme.is_set (Scheme.of_uint16 0) = false.
Proof.
  split.
  - apply (proj2 (unset_is_default (Scheme.of_code Code.ECDSA_SHA384))).
    reflexivity.
  - apply (proj1 (unset_is_default (Scheme.of_uint16 0))). reflexivity.
Defined.

(** ** Agreement of the descriptors *)

(** X2: the descriptor switches agree on which codes are recognized: for
    every code, [format] is present, [hash_function_name] and
    [algorithm_name] are not their fallbacks and [to_string] does not
    start with the fallback prefix exactly when the code is one of the
    seventeen case labels. *)
Theorem descriptors_agree_on_recognition (s : Signature_Scheme) :
  (Scheme.format s <> None <-> In (m_code s) Code.recognized_codes)
  /\ (Scheme.hash_function_name s <> "Unknown hash function"
      <-> In (m_code s) Code.recognized_codes)
  /\ (Scheme.algorithm_name s <> "Unknown algorithm"
      <-> In (m_code s) Code.recognized_codes)
  /\ (String.prefix "Unknown signature scheme: " (Scheme.to_string s) = false
      <-> In (m_code s) Code.recognized_codes).
Proof.
  destruct (label_cases (m_code s) Code.recognized_codes) as [Hin | Hout].
  - destruct s as [c]; simpl in Hin.
    assert (Hin' := Hin).
    each_code Hin' ltac:(repeat split; solve [discriminate | reflexivity | cbv; tauto]).
  - unfold Scheme.format, Scheme.hash_function_name, Scheme.algorithm_name,
      Scheme.to_string.
    rewrite !(switch_outside Code.recognized_codes (m_code s))
      by (reflexivity || exact Hout).
    split; [| split; [| split]];
      (split; [intros H | intros H; contradiction]);
      first [ exfalso; now apply H
            | simpl in H; destruct (std_to_string (m_code s)); discriminate H ].
Qed.

(** X3: [to_string] names a scheme uniquely: two schemes with the same
    name have the same code, over recognized and unrecognized codes
    alike. *)
Theorem to_string_injective (s1 s2 : Signature_Scheme) :
  Scheme.to_string s1 = Scheme.to_string s2 -> s1 = s2.
Proof.
  destruct (label_cases (m_code s1) Code.recognized_codes) as [H1 | H1];
    destruct (label_cases (m_code s2) Code.recognized_codes) as [H2 | H2].
  - destruct s1 as [c1], s2 as [c2]; simpl in H1, H2.
    each_code H1 ltac:(each_code H2 ltac:(
      intros Heq; first [reflexivity | discriminate Heq])).
  - unfold Scheme.to_string at 2.
    rewrite (switch_outside Code.recognized_codes (m_code s2))
      by (reflexivity || exact H2).
    destruct s1 as [c1]; simpl in H1.
    each_code H1 ltac:(intros Heq; discriminate Heq).
  - unfold Scheme.to_string at 1.
    rewrite (switch_outside Code.recognized_codes (m_code s1))
      by (reflexivity || exact H1).
    destruct s2 as [c2]; simpl in H2.
    each_code H2 ltac:(intros Heq; discriminate Heq).
  - now apply unrecognized_to_string_inj.
Qed.

Lemma to_string_injective_witness :
  Scheme.of_uint16 (0x0804 + 65536) = Scheme.of_code Code.RSA_PSS_SHA256.
Proof.
  apply to_string_injective. reflexivity.
Defined.

(** X4: the padding string is built on the hash function of the same
    code: "EMSA_PKCS1(hash)" for the RSA-PKCS1 codes, "EMSA1(hash)" for
    the ECDSA codes, "PSSR(hash,MGF1,n)" for the RSA-PSS codes, where the
    salt length n is the length of the hash in bytes (the hash is
    "SHA-" followed by 8 * n), and the hash name itself, "Pure", for the
    EdDSA codes.
    Every other code has no padding: the DSA codes, although they have a
    hash function and an algorithm name, get "Unknown padding". *)
Theorem padding_string_by_family (s : Signature_Scheme) :
  (In (m_code s) Code.rsa_pkcs1_codes ->
   Scheme.padding_string s
   = ("EMSA_PKCS1(" ++ Scheme.hash_function_name s ++ ")")%string)
  /\ (In (m_code s) Code.ecdsa_codes ->
      Scheme.padding_string s
      = ("EMSA1(" ++ Scheme.hash_function_name s ++ ")")%string)
  /\ (In (m_code s) Code.rsa_pss_codes ->
      exists n : Z,
        Scheme.hash_function_name s = ("SHA-" ++ std_to_string (8 * n))%string
        /\ Scheme.padding_string s
           = ("PSSR(" ++ Scheme.hash_function_name s ++ ",MGF1,"
              ++ std_to_string n ++ ")")%string)
  /\ (In (m_code s) Code.eddsa_codes ->
      Scheme.padding_string s = Scheme.hash_function_name s
      /\ Scheme.padding_string s = "Pure")
  /\ (~ In (m_code s) padded_codes ->
      Scheme.padding_string s = "Unknown padding")
  /\ (In (m_code s) Code.dsa_codes ->
      Scheme.padding_string s = "Unknown padding"
      /\ Scheme.hash_function_name s <> "Unknown hash function"
      /\ Scheme.algorithm_name s = "DSA").
Proof.
  destruct s as [c]; cbn [m_code].
  split; [intros H; each_code H reflexivity |].
  split; [intros H; each_code H reflexivity |].
  split.
  { intros H. cbv in H.
    destruct H as [<- | [<- | [<- | []]]];
      [exists 32 | exists 48 | exists 64]; (split; reflexivity). }
  split; [intros H; each_code H ltac:(split; reflexivity) |].
  split.
  { intros Hout. unfold Scheme.padding_string.
    apply (switch_outside padded_codes); [reflexivity | exact Hout]. }
  intros H.
  each_code H ltac:(split; [reflexivity | split; [discriminate | reflexivity]]).
Qed.

Lemma padding_string_by_family_witness :
  Scheme.padding_string (Scheme.of_code Code.RSA_PKCS1_SHA384) = "EMSA_PKCS1(SHA-384)"
  /\ Scheme.padding_string (Scheme.of_code Code.DSA_SHA256) = "Unknown padding"
  /\ Scheme.padding_string (Scheme.of_uint16 0) = "Unknown padding".
Proof.
  split.
  - apply (proj1 (padding_string_by_family (Scheme.of_code Code.RSA_PKCS1_SHA384))).
    cbv. tauto.
  - split.
    + apply (proj2 (proj2 (proj2 (proj2 (proj2
               (padding_string_by_family (Scheme.of_code Code.DSA_SHA256))))))).
      cbv. tauto.
    + apply (proj1 (proj2 (proj2 (proj2 (proj2
               (padding_string_by_family (Scheme.of_uint16 0))))))).
      cbv. intros H.
      repeat (destruct H as [H | H]; [discriminate H |]). exact H.
Defined.

(** X5: the signature format follows the key algorithm: it is IEEE_1363
    exactly for the schemes whose algorithm is "RSA", and DER_SEQUENCE
    exactly for those whose algorithm is "ECDSA", "Ed25519", "Ed448" or
    "DSA". *)
Theorem format_follows_algorithm (s : Signature_Scheme) :
  (Scheme.format s = Some IEEE_1363 <-> Scheme.algorithm_name s = "RSA")
  /\ (Scheme.format s = Some DER_SEQUENCE
      <-> In (Scheme.algorithm_name s) ["ECDSA"; "Ed25519"; "Ed448"; "DSA"]).
Proof.
  destruct (label_cases (m_code s) Code.recognized_codes) as [Hin | Hout].
  - destruct s as [c]; simpl in Hin.
    each_code Hin ltac:(
      split; (split; intros H;
              first [reflexivity | discriminate H | cbv; tauto
                    | cbv in H; repeat (destruct H as [H | H]; [discriminate H |]);
                      contradiction])).
  - unfold Scheme.format, Scheme.algorithm_name.
    rewrite !(switch_outside Code.recognized_codes (m_code s))
      by (reflexivity || exact Hout).
    split; (split; intros H; [discriminate H |]).
    + discriminate H.
    + cbv in H. repeat (destruct H as [H | H]; [discriminate H |]). contradiction.
Qed.

(** X6: [algorithm_identifier] is non-empty exactly for the eleven codes
    it names, and the name it then carries is the scheme's
    [algorithm_name]; ECDSA_SHA1, EDDSA_448 and the DSA codes have an
    algorithm name but no identifier. *)
Theorem algorithm_identifier_names_algorithm
    (der : string -> list Byte.byte) (s : Signature_Scheme) :
  (Scheme.algorithm_identifier der s <> AlgorithmIdentifier_empty
   <-> In (m_code s) Code.identified_codes)
  /\ (In (m_code s) Code.identified_codes ->
      oid_name (Scheme.algorithm_identifier der s) = Scheme.algorithm_name s)
  /\ (In (m_code s) (Code.ECDSA_SHA1 :: Code.EDDSA_448 :: Code.dsa_codes) ->
      Scheme.algorithm_identifier der s = AlgorithmIdentifier_empty
      /\ Scheme.algorithm_name s <> "Unknown algorithm").
Proof.
  split; [| split].
  - destruct (label_cases (m_code s) Code.identified_codes) as [Hin | Hout].
    + split; [intros _; exact Hin | intros _].
      destruct s as [c]; simpl in Hin.
      each_code Hin discriminate.
    + unfold Scheme.algorithm_identifier.
      rewrite (switch_outside Code.identified_codes (m_code s))
        by (reflexivity || exact Hout).
      split; intros H; [exfalso; now apply H | contradiction].
  - intros Hin. destruct s as [c]; simpl in Hin.
    each_code Hin reflexivity.
  - intros Hin. destruct s as [c]; simpl in Hin.
    each_code Hin ltac:(split; [reflexivity | discriminate]).
Qed.

Lemma algorithm_identifier_names_algorithm_witness :
  oid_name (Scheme.algorithm_identifier (fun _ => [])
              (Scheme.of_code Code.RSA_PSS_SHA512)) = "RSA"
  /\ Scheme.algorithm_identifier (fun _ => []) (Scheme.of_code Code.DSA_SHA384)
     = AlgorithmIdentifier_empty.
Proof.
  split.
  - apply (proj1 (proj2 (algorithm_identifier_names_algorithm (fun _ => [])
                           (Scheme.of_code Code.RSA_PSS_SHA512)))).
    cbv. tauto.
  - apply (proj2 (proj2 (algorithm_identifier_names_algorithm (fun _ => [])
                           (Scheme.of_code Code.DSA_SHA384)))).
    cbv. tauto.
Defined.

(** ** Protocol compatibility by code *)

(** X7: a scheme is compatible with a version exactly when its code is
    none of the three SHA-1 codes and either the version is pre-TLS-1.3
    or the code is none of the four RSA-PKCS1 codes. *)
Theorem is_compatible_with_by_code (s : Signature_Scheme) (v : Protocol_Version) :
  Scheme.is_compatible_with s v = true
  <-> ~ In (m_code s) Code.sha1_codes
      /\ (is_pre_tls_13 v = true \/ ~ In (m_code s) Code.rsa_pkcs1_codes).
Proof.
  rewrite is_compatible_with_pre13, andb_true_iff, orb_true_iff,
    !negb_true_iff, has_label_not_In, <- hash_sha1_iff.
  destruct (String.eqb_spec (Scheme.hash_function_name s) "SHA-1") as [E | E].
  - split; [intros [H _]; discriminate H | intros [H _]; contradiction].
  - tauto.
Qed.

(** X8: the compatibility test does not look at whether a code is known:
    a code outside the recognized enumeration, NONE included, is
    compatible with every protocol version. *)
Theorem unrecognized_code_compatible (s : Signature_Scheme) (v : Protocol_Version) :
  ~ In (m_code s) Code.recognized_codes ->
  Scheme.is_compatible_with s v = true /\ Scheme.is_available s = false.
Proof.
  intros Hout. split.
  - rewrite is_compatible_with_pre13.
    assert (Hh : Scheme.hash_function_name s = "Unknown hash function").
    { unfold Scheme.hash_function_name.
      apply (switch_outside Code.recognized_codes); [reflexivity | exact Hout]. }
    assert (Hp : has_label (m_code s) Code.rsa_pkcs1_codes = false).
    { apply has_label_not_In. outside Hout. }
    rewrite Hh, Hp. cbn. apply orb_true_r.
  - destruct (Scheme.is_available s) eqn:Ha; [| reflexivity].
    apply is_available_offered in Ha. exfalso. revert Ha. outside Hout.
Qed.

Lemma unrecognized_code_compatible_witness :
  Scheme.is_compatible_with Scheme.default TLS_V13 = true
  /\ Scheme.is_available Scheme.default = false.
Proof.
  apply unrecognized_code_compatible. cbv. intros H.
  repeat (destruct H as [H | H]; [discriminate H |]). exact H.
Defined.

(** X9: every scheme of the registry is compatible with every
    pre-TLS-1.3 version; for a version that is not pre-TLS-1.3 the
    compatible schemes of the registry are exactly its RSA-PSS and ECDSA
    entries. *)
Theorem available_schemes_by_version (s : Signature_Scheme) (v : Protocol_Version) :
  Scheme.is_available s = true ->
  (is_pre_tls_13 v = true -> Scheme.is_compatible_with s v = true)
  /\ (is_pre_tls_13 v = false ->
      (Scheme.is_compatible_with s v = true
       <-> In (m_code s) (Code.rsa_pss_codes ++ Code.ecdsa_codes))).
Proof.
  intros Ha. apply is_available_offered in Ha.
  destruct s as [c]; simpl in Ha.
  split; intros Hv.
  - each_code Ha ltac:(rewrite is_compatible_with_pre13, Hv; reflexivity).
  - each_code Ha ltac:(
      rewrite is_compatible_with_pre13, Hv;
      split; intros H; first [discriminate H | reflexivity | cbv; tauto
        | cbv in H; repeat (destruct H as [H | H]; [discriminate H |]);
          contradiction]).
Qed.

Lemma available_schemes_by_version_witness :
  Scheme.is_compatible_with (Scheme.of_code Code.RSA_PKCS1_SHA512) TLS_V12 = true
  /\ (Scheme.is_compatible_with (Scheme.of_code Code.RSA_PKCS1_SHA512) TLS_V13 = true
      <-> In Code.RSA_PKCS1_SHA512 (Code.rsa_pss_codes ++ Code.ecdsa_codes)).
Proof.
  split.
  - apply (proj1 (available_schemes_by_version
                    (Scheme.of_code Code.RSA_PKCS1_SHA512) TLS_V12 eq_refl)).
    reflexivity.
  - apply (proj2 (available_schemes_by_version
                    (Scheme.of_code Code.RSA_PKCS1_SHA512) TLS_V13 eq_refl)).
    reflexivity.
Defined.

(** ** Key suitability by scheme *)

(** X10: outside ECDSA_SHA256, ECDSA_SHA384 and ECDSA_SHA512 the only
    tests are the algorithm family and the 250-bit floor: the scheme is
    suitable exactly when its algorithm name is the key's and the key is
    longer than 250 bits, with no upper bound and whatever the hash or
    the RSA padding. *)
Theorem is_suitable_for_unbanded (s : Signature_Scheme) (k : Private_Key) :
  ~ In (m_code s) banded_codes ->
  (Scheme.is_suitable_for s k = true
   <-> Scheme.algorithm_name s = algo_name k /\ 250 < key_length k).
Proof.
  intros Hout. unfold Scheme.is_suitable_for.
  assert (H256 : (m_code s =? Code.ECDSA_SHA256) = false).
  { apply Z.eqb_neq. intros E. apply Hout. rewrite E. cbv. tauto. }
  assert (H384 : (m_code s =? Code.ECDSA_SHA384) = false).
  { apply Z.eqb_neq. intros E. apply Hout. rewrite E. cbv. tauto. }
  assert (H512 : (m_code s =? Code.ECDSA_SHA512) = false).
  { apply Z.eqb_neq. intros E. apply Hout. rewrite E. cbv. tauto. }
  cbv zeta. rewrite H256, H384, H512. cbn [andb].
  destruct (String.eqb_spec (Scheme.algorithm_name s) (algo_name k)) as [E | E];
    cbn [negb].
  - destruct (Z.leb_spec (key_length k) 250) as [L | L].
    + split; [discriminate | intros [_ H]; lia].
    + split; [intros _; split; [exact E | exact L] | reflexivity].
  - split; [discriminate | intros [H _]; contradiction].
Qed.

Lemma is_suitable_for_unbanded_witness :
  Scheme.is_suitable_for (Scheme.of_code Code.RSA_PKCS1_SHA256)
    (Build_Private_Key "RSA" 16384) = true
  /\ Scheme.is_suitable_for (Scheme.of_code Code.ECDSA_SHA1)
       (Build_Private_Key "ECDSA" 521) = true.
Proof.
  split.
  - apply (is_suitable_for_unbanded (Scheme.of_code Code.RSA_PKCS1_SHA256)
             (Build_Private_Key "RSA" 16384)).
    + cbv. intros H. repeat (destruct H as [H | H]; [discriminate H |]). exact H.
    + split; [reflexivity | simpl; lia].
  - apply (is_suitable_for_unbanded (Scheme.of_code Code.ECDSA_SHA1)
             (Build_Private_Key "ECDSA" 521)).
    + cbv. intros H. repeat (destruct H as [H | H]; [discriminate H |]). exact H.
    + split; [reflexivity | simpl; lia].
Defined.

(** X11: for an ECDSA key the three bands cover the lengths from 251 to
    550 and meet only at their edges: ECDSA_SHA256 and ECDSA_SHA384 are
    both suitable exactly at 350 bits, ECDSA_SHA384 and ECDSA_SHA512
    exactly at 450 bits, ECDSA_SHA256 and ECDSA_SHA512 never together;
    a key longer than 550 bits fits none of the three. *)
Theorem ecdsa_bands_cover_and_meet (k : Private_Key) :
  algo_name k = "ECDSA" ->
  let ok c := Scheme.is_suitable_for (Scheme.of_code c) k in
  (ok Code.ECDSA_SHA256 = true /\ ok Code.ECDSA_SHA384 = true
   <-> key_length k = 350)
  /\ (ok Code.ECDSA_SHA384 = true /\ ok Code.ECDSA_SHA512 = true
      <-> key_length k = 450)
  /\ ~ (ok Code.ECDSA_SHA256 = true /\ ok Code.ECDSA_SHA512 = true)
  /\ (ok Code.ECDSA_SHA256 || ok Code.ECDSA_SHA384 || ok Code.ECDSA_SHA512 = true
      <-> 250 < key_length k <= 550).
Proof.
  intros Hfam ok. subst ok. cbv beta.
  destruct (is_suitable_for_ecdsa k Hfam) as [H256 [H384 H512]].
  rewrite H256, H384, H512.
  rewrite !orb_true_iff, !andb_true_iff, !negb_true_iff,
    !Z.leb_gt, !Z.geb_le, !Z.leb_le.
  repeat split; lia.
Qed.

Lemma ecdsa_bands_cover_and_meet_witness :
  Scheme.is_suitable_for (Scheme.of_code Code.ECDSA_SHA256)
    (Build_Private_Key "ECDSA" 350) = true
  /\ Scheme.is_suitable_for (Scheme.of_code Code.ECDSA_SHA384)
       (Build_Private_Key "ECDSA" 350) = true.
Proof.
  apply (proj1 (ecdsa_bands_cover_and_meet (Build_Private_Key "ECDSA" 350) eq_refl)).
  reflexivity.
Defined.

(** ** What the registry offers *)

(** X12: every scheme of the registry is fully described: its code is
    recognized, its key algorithm is "RSA" or "ECDSA", its hash is one of
    SHA-256, SHA-384, SHA-512, and its padding, signature format and
    certificate algorithm identifier are all defined. *)
Theorem available_scheme_described
    (der : string -> list Byte.byte) (s : Signature_Scheme) :
  Scheme.is_available s = true ->
  In (m_code s) Code.recognized_codes
  /\ In (Scheme.algorithm_name s) ["RSA"; "ECDSA"]
  /\ In (Scheme.hash_function_name s) ["SHA-256"; "SHA-384"; "SHA-512"]
  /\ Scheme.padding_string s <> "Unknown padding"
  /\ Scheme.format s <> None
  /\ Scheme.algorithm_identifier der s <> AlgorithmIdentifier_empty
  /\ oid_name (Scheme.algorithm_identifier der s) = Scheme.algorithm_name s.
Proof.
  intros Ha. apply is_available_offered in Ha.
  destruct s as [c]; simpl in Ha.
  each_code Ha ltac:(
    split; [cbv; tauto |];
    split; [cbv; tauto |];
    split; [cbv; tauto |];
    split; [discriminate |];
    split; [discriminate |];
    split; [discriminate | reflexivity]).
Qed.

Lemma available_scheme_described_witness :
  In (Scheme.algorithm_name (Scheme.of_code Code.ECDSA_SHA512)) ["RSA"; "ECDSA"]
  /\ Scheme.format (Scheme.of_code Code.ECDSA_SHA512) <> None.
Proof.
  destruct (available_scheme_described (fun _ => [])
              (Scheme.of_code Code.ECDSA_SHA512) eq_refl)
    as [_ [Halg [_ [_ [Hfmt _]]]]].
  split; [exact Halg | exact Hfmt].
Defined.

(** X13: the registry holds nine schemes with pairwise distinct codes, so
    no scheme is offered twice. *)
Theorem registry_has_no_duplicate :
  NoDup Scheme.all_available_schemes
  /\ NoDup offered_codes
  /\ List.length Scheme.all_available_schemes = 9%nat.
Proof.
  assert (Hcodes : NoDup offered_codes).
  { cbv. repeat (apply NoDup_cons; [intros H;
      repeat (destruct H as [H | H]; [discriminate H |]); exact H |]).
    apply NoDup_nil. }
  split; [| split; [exact Hcodes | reflexivity]].
  apply (NoDup_map_inv m_code). exact Hcodes.
Qed.

(** X14: a suitable key always has the scheme's algorithm family and more
    than 250 bits; so a scheme with an unrecognized code is suitable for
    no key, unless the key names its algorithm "Unknown algorithm". *)
Theorem suitable_requires_family (s : Signature_Scheme) (k : Private_Key) :
  Scheme.is_suitable_for s k = true ->
  Scheme.algorithm_name s = algo_name k
  /\ 250 < key_length k
  /\ (In (m_code s) Code.recognized_codes \/ algo_name k = "Unknown algorithm").
Proof.
  unfold Scheme.is_suitable_for. cbv zeta.
  destruct (String.eqb_spec (Scheme.algorithm_name s) (algo_name k)) as [E | E];
    cbn [negb]; [| discriminate].
  destruct (Z.leb_spec (key_length k) 250) as [L | L]; [discriminate |].
  intros _. split; [exact E |]. split; [exact L |].
  destruct (label_cases (m_code s) Code.recognized_codes) as [Hin | Hout].
  - now left.
  - right. rewrite <- E. unfold Scheme.algorithm_name.
    apply (switch_outside Code.recognized_codes); [reflexivity | exact Hout].
Qed.

Lemma suitable_requires_family_witness :
  Scheme.algorithm_name (Scheme.of_code Code.RSA_PSS_SHA256) = "RSA"
  /\ 250 < 2048.
Proof.
  destruct (suitable_requires_family (Scheme.of_code Code.RSA_PSS_SHA256)
              (Build_Private_Key "RSA" 2048) eq_refl) as [Hfam [Hlen _]].
  split; [exact Hfam | exact Hlen].
Defined.
